(** * SimulationSolarHeater: a shallow embedding of the solar water heater

    The development follows [SimulationSolarHeater.py] class by class:
    [Fluid], [Panel], [SolarHeater], [Tank], [Pumping], [Controller].

    Numbers.  The type hints of the source give volumes, capacities, the
    pumping rate, panel counts and durations the type [int]; they are
    modelled as [Z].  Temperatures, energies and panel dimensions are
    Python floats (or ints promoted to floats by [/] and [*]); they are
    modelled as exact rationals [Q], so every theorem below speaks about
    the real-number reading of the arithmetic and says nothing about
    IEEE-754 rounding.  Division is the one partial operation: Python
    raises [ZeroDivisionError] on a zero divisor, for ints and floats
    alike, and [pydiv] does the same.

    Effects.  Methods mutate their object, print, and may raise.  An
    exception does not roll back earlier mutations, so a computation
    returns its result together with the final state and the lines it
    printed. *)

From Stdlib Require Import ZArith QArith Qminmax List String Bool Lia Lqa.
Import ListNotations.

Local Open Scope Z_scope.

(** ** Exceptions and results *)

Inductive exn : Type :=
| ValueError
| ZeroDivisionError
| AttributeError
| NameError
| TypeError
| IndexError.

Inductive result (A : Type) : Type :=
| Ok (a : A)
| Raise (e : exn).

Arguments Ok {A} a.
Arguments Raise {A} e.

Definition bindR {A B : Type} (c : result A) (k : A -> result B) : result B :=
  match c with
  | Ok a => k a
  | Raise e => Raise e
  end.

Declare Scope result_scope.
Delimit Scope result_scope with result.
Notation "x <~ c ;; k" := (bindR c (fun x => k))
  (at level 100, c at next level, right associativity) : result_scope.

(** [mapR f l] evaluates [f] on the elements of [l] from left to right and
    stops at the first exception, as a [for] loop that appends does. *)
Fixpoint mapR {A B : Type} (f : A -> result B) (l : list A) : result (list B) :=
  match l with
  | [] => Ok []
  | a :: l' =>
      (b <~ f a ;;
       bs <~ mapR f l' ;;
       Ok (b :: bs))%result
  end.

(** True division [a / b]. *)
Definition pydiv (a b : Q) : result Q :=
  if Qeq_bool b 0 then Raise ZeroDivisionError else Ok (a / b)%Q.

(** The builtin [sum]: starts from 0 and adds from left to right. *)
Definition pysum (l : list Q) : Q := fold_left Qplus l 0%Q.

(** ** Printing *)

(** One argument of a [print] call. *)
Inductive pyval : Type :=
| PStr (s : string)
| PInt (z : Z)
| PNum (q : Q).

(** A [print] call writes one line, the list of its arguments. *)
Definition line : Type := list pyval.

(** ** Stateful computations *)

Record Out (S A : Type) : Type := mkOut {
  value : result A;
  final : S;
  printed : list line
}.

Arguments mkOut {S A} value final printed.
Arguments value {S A} o.
Arguments final {S A} o.
Arguments printed {S A} o.

Definition Eff (S A : Type) : Type := S -> Out S A.

Definition ret {S A : Type} (a : A) : Eff S A :=
  fun s => mkOut (Ok a) s [].

Definition raise {S A : Type} (e : exn) : Eff S A :=
  fun s => mkOut (Raise e) s [].

Definition bind {S A B : Type} (c : Eff S A) (k : A -> Eff S B) : Eff S B :=
  fun s =>
    let o := c s in
    match value o with
    | Ok a =>
        let o' := k a (final o) in
        mkOut (value o') (final o') (printed o ++ printed o')
    | Raise e => mkOut (Raise e) (final o) (printed o)
    end.

Definition get {S : Type} : Eff S S := fun s => mkOut (Ok s) s [].

Definition put {S : Type} (s' : S) : Eff S unit := fun _ => mkOut (Ok tt) s' [].

Definition print {S : Type} (l : line) : Eff S unit :=
  fun s => mkOut (Ok tt) s [l].

(** A pure computation that may raise, run inside a stateful one. *)
Definition liftR {S A : Type} (r : result A) : Eff S A :=
  fun s => mkOut r s [].

(** Run a computation on a component [proj s] of a larger state. *)
Definition zoom {S T A : Type} (proj : S -> T) (inj : T -> S -> S)
    (c : Eff T A) : Eff S A :=
  fun s =>
    let o := c (proj s) in
    mkOut (value o) (inj (final o) s) (printed o).

Declare Scope eff_scope.
Delimit Scope eff_scope with eff.
Notation "x <- c ;; k" := (bind c (fun x => k))
  (at level 100, c at next level, right associativity) : eff_scope.
Notation "c ;; k" := (bind c (fun _ => k))
  (at level 100, right associativity) : eff_scope.

(** ** Fluid *)

Module Fluid.
(** kJ/Kg C; the default fluid is water. *)
Definition SpecificHeatCapacity : Q := 4.2%Q.
(** kg/m3 *)
Definition Density : Z := 980.
End Fluid.

(** ** Panel *)

Record Panel : Type := mkPanel {
  height : Q;
  width : Q;
  efficiency : Q
}.

Module PanelM.

(** [Panel.__init__] with its default arguments. *)
Definition default : Panel := mkPanel 1%Q 1%Q 0.18%Q.

(** [heatEnergy(self, mass, specificHeat, temprature)]: the first
    parameter is the energy [Q]; the function is called through the
    class, [Panel.heatEnergy(Q, ...)]. *)
Definition heatEnergy (energy mass specificHeat temprature : Q) : result Q :=
  (dT <~ pydiv energy (mass * specificHeat)%Q ;;
   Ok (dT + temprature)%Q)%result.

Definition tempResult (self : Panel) (solarEnergy mass temprature : Q)
  : result Q :=
  let Q := (solarEnergy * height self * width self * efficiency self)%Q in
  heatEnergy Q mass Fluid.SpecificHeatCapacity temprature.

Definition setSpec (self : Panel) (h w e : option Q) : Panel :=
  let self1 := match h with
               | Some x => mkPanel x (width self) (efficiency self)
               | None => self
               end in
  let self2 := match w with
               | Some x => mkPanel (height self1) x (efficiency self1)
               | None => self1
               end in
  match e with
  | Some x => mkPanel (height self2) (width self2) x
  | None => self2
  end.

End PanelM.

(** ** SolarHeater *)

(** An instance of [SolarHeater].  Its only instance attribute is
    [incidentEnergy]: no method ever assigns [self.__panels], so that name
    always resolves to the class attribute. *)
Record SolarHeater : Type := mkSolarHeater {
  incidentEnergy : Q
}.

Module SolarHeaterM.

Definition MAX_HEAT : Q := 95%Q.

(** The class attribute [__panels = []]: one list object, created when
    the class body runs and shared by every instance.  The state of the
    class is the content of that list. *)
Definition ClassState : Type := list Panel.

Definition fresh_class : ClassState := [].

(** [self.__panels], read through any instance. *)
Definition panels_of (cls : ClassState) (self : SolarHeater) : list Panel := cls.

(** The list-valued attributes reachable from an instance, by attribute
    name.  Inside the class body [self.__panels] is mangled to
    [_SolarHeater__panels]. *)
Definition list_attr (cls : ClassState) (self : SolarHeater) (name : string)
  : result (list Panel) :=
  if String.eqb name "_SolarHeater__panels" then Ok (panels_of cls self)
  else Raise AttributeError.

(** [for _ in range(number): body] *)
Fixpoint repeatE {S : Type} (n : nat) (body : Eff S unit) : Eff S unit :=
  match n with
  | O => ret tt
  | Datatypes.S n' => (body ;; repeatE n' body)%eff
  end.

Definition append_panel (p : Panel) : Eff ClassState unit :=
  fun cls => mkOut (Ok tt) (cls ++ [p]) [].

Definition buildSolarPanels (number : Z) (customSpec : list Q)
  : Eff ClassState unit :=
  let len := Z.of_nat (List.length customSpec) in
  if negb (len =? 0) && negb (len =? 3) then raise ValueError
  else
    let '(h, w, e) :=
      match customSpec with
      | [a; b; c] => (a, b, c)
      | _ => (1%Q, 1%Q, 0.18%Q)
      end in
    repeatE (Z.to_nat number) (append_panel (mkPanel h w e)).

(** [SolarHeater(numberOfPanels, customSpec)] *)
Definition init (numberOfPanels : Z) (customSpec : list Q)
  : Eff ClassState SolarHeater :=
  (buildSolarPanels numberOfPanels customSpec ;;
   ret (mkSolarHeater (-1)%Q))%eff.

Definition getIncidentEnergy {S : Type} (self : SolarHeater) : Eff S Q :=
  if Qeq_bool (incidentEnergy self) 0 then
    (print [PStr "Incident energy on solar panel needs to be non-negative"] ;;
     raise ValueError)%eff
  else ret (incidentEnergy self).

Definition setIncidentEnergy (self : SolarHeater) (energy : Q) : SolarHeater :=
  mkSolarHeater energy.

Definition heatWater (cls : ClassState) (self : SolarHeater)
    (volume : Z) (initialTemp : Q) : result Q :=
  if Qle_bool MAX_HEAT initialTemp then Ok MAX_HEAT
  else
    let numberOfPanels := Z.of_nat (List.length (panels_of cls self)) in
    (volumePerPanel <~ pydiv (inject_Z volume) (inject_Z numberOfPanels) ;;
     let massPerPanel := (volumePerPanel * inject_Z Fluid.Density)%Q in
     tempObtainedFromPanels <~
       mapR (fun panel =>
               t <~ PanelM.tempResult panel (incidentEnergy self)
                      massPerPanel initialTemp ;;
               Ok (t * massPerPanel)%Q)
            (panels_of cls self) ;;
     let total_mass := inject_Z (volume * Fluid.Density) in
     pydiv (pysum tempObtainedFromPanels) total_mass)%result.

(** *** [changePanelAt]

    The definition has no [self] parameter:
    [def changePanelAt(index, height=None, width=None, efficiency=None)].
    Its body nevertheless reads [self.panels] and [self.__panels].  A
    name is looked up among the locals of the function and then among
    the names of the module; [env] lists the names in scope that denote
    a [SolarHeater] instance. *)

Definition lookup_name (env : list (string * SolarHeater)) (x : string)
  : result SolarHeater :=
  match find (fun b => String.eqb (fst b) x) env with
  | Some b => Ok (snd b)
  | None => Raise NameError
  end.

(** [l[i]] for reading: negative indices count from the end, anything
    else out of range raises [IndexError]. *)
Definition getitem (l : list Panel) (i : Z) : result (nat * Panel) :=
  let n := Z.of_nat (List.length l) in
  let j := if i <? 0 then i + n else i in
  if (j <? 0) || (n <=? j) then Raise IndexError
  else match nth_error l (Z.to_nat j) with
       | Some p => Ok (Z.to_nat j, p)
       | None => Raise IndexError
       end.

Fixpoint set_nth (l : list Panel) (k : nat) (p : Panel) : list Panel :=
  match l, k with
  | [], _ => []
  | _ :: l', O => p :: l'
  | q :: l', Datatypes.S k' => q :: set_nth l' k' p
  end.

Definition changePanelAt_body (env : list (string * SolarHeater))
    (index : Z) (h w e : option Q) : Eff ClassState unit :=
  (cls <- get ;;
   self <- liftR (lookup_name env "self") ;;
   ps <- liftR (list_attr cls self "panels") ;;
   if Z.of_nat (List.length ps) <=? index then ret tt
   else
     (self' <- liftR (lookup_name env "self") ;;
      ps' <- liftR (list_attr cls self' "_SolarHeater__panels") ;;
      ip <- liftR (getitem ps' index) ;;
      put (set_nth cls (fst ip) (PanelM.setSpec (snd ip) h w e))))%eff.

(** The locals are the four parameters, which hold an int and three
    optional numbers; the module binds classes and [main] only.  No name
    in scope denotes an instance. *)
Definition changePanelAt (index : Z) (h w e : option Q)
  : Eff ClassState unit :=
  changePanelAt_body [] index h w e.

End SolarHeaterM.

(** ** Tank *)

Record Tank : Type := mkTank {
  capacity : Z;   (* volume of tank in liters *)
  waterVol : Z;   (* volume of water in liters *)
  waterTemp : Q   (* uniform water temperature in C *)
}.

Module TankM.

(** [Tank()] with its default arguments. *)
Definition default : Tank := mkTank 600 200 30%Q.

(** Reading an attribute of a [Tank] instance by name; the instance
    has exactly the three attributes set by [__init__]. *)
Definition getattr (self : Tank) (name : string) : result pyval :=
  if String.eqb name "capacity" then Ok (PInt (capacity self))
  else if String.eqb name "waterVol" then Ok (PInt (waterVol self))
  else if String.eqb name "waterTemp" then Ok (PNum (waterTemp self))
  else Raise AttributeError.

Definition setWaterVol (volume : Z) : Eff Tank unit :=
  fun self => mkOut (Ok tt) (mkTank (capacity self) volume (waterTemp self)) [].

Definition getWaterVol : Eff Tank Z :=
  fun self => mkOut (Ok (waterVol self)) self [].

Definition mixWater (volume : Z) (temprature : Q) : Eff Tank unit :=
  (self <- get ;;
   t <- liftR (pydiv (inject_Z volume * temprature
                      + waterTemp self * inject_Z (waterVol self))%Q
                     (inject_Z (volume + waterVol self))) ;;
   put (mkTank (capacity self) (waterVol self) t) ;;
   self' <- get ;;
   put (mkTank (capacity self') (waterVol self' + volume) (waterTemp self')))%eff.

Definition addWater (volume : Z) (temprature : Q) : Eff Tank unit :=
  (self <- get ;;
   (if volume >? capacity self - waterVol self
    then print [PStr "Cannot add more water than the overall tank capacity"]
    else ret tt) ;;
   mixWater volume temprature)%eff.

(** In the refusing branch the arguments of [print] are evaluated
    first; [self.waterCap] is one of them. *)
Definition releaseWaterVolume (volume : Z) : Eff Tank unit :=
  (self <- get ;;
   if volume >? waterVol self then
     (cap <- liftR (getattr self "waterCap") ;;
      print [PStr "Sepcify volume not more than current volume of water
Current Volume of Water:"; cap; PStr " Kg/m3"] ;;
      ret tt)
   else put (mkTank (capacity self) (waterVol self - volume) (waterTemp self)))%eff.

End TankM.

(** ** Pumping and Controller *)

(** A controller owns a heater, a tank and a pump, and the pump holds
    references to the same heater and tank objects
    ([Pumping(spec[0], spec[1])]).  Each object therefore appears once in
    the state; [pumpingRate] is the pump's own attribute.  [cls] is the
    state of the [SolarHeater] class, which the heater reads its panels
    from. *)
Record Sys : Type := mkSys {
  cls : SolarHeaterM.ClassState;
  heater : SolarHeater;
  tank : Tank;
  pumpingRate : Z;
  targetTemp : Q
}.

Definition set_tank (t : Tank) (s : Sys) : Sys :=
  mkSys (cls s) (heater s) t (pumpingRate s) (targetTemp s).

Definition set_cls (c : SolarHeaterM.ClassState) (s : Sys) : Sys :=
  mkSys c (heater s) (tank s) (pumpingRate s) (targetTemp s).

Module Pumping.

Definition setPumpingRateLitersPerSec (rate : Z) : Eff Sys unit :=
  fun s => mkOut (Ok tt)
             (mkSys (cls s) (heater s) (tank s) rate (targetTemp s)) [].

(** Add water into the thermal collector from the tank; the value is
    the temperature of the water leaving the collector. *)
Definition feedWaterToSolarHeater : Eff Sys Q :=
  (s <- get ;;
   liftR (SolarHeaterM.heatWater (cls s) (heater s)
            (pumpingRate s) (waterTemp (tank s))))%eff.

Definition drawWaterFromTank : Eff Sys unit :=
  (s <- get ;;
   zoom tank set_tank (TankM.releaseWaterVolume (pumpingRate s)))%eff.

Definition feedWaterToTank (waterTemperature : Q) : Eff Sys unit :=
  (s <- get ;;
   zoom tank set_tank (TankM.addWater (pumpingRate s) waterTemperature))%eff.

End Pumping.

Module Controller.

(** [componentFactory(SOLAR_HEATER)] *)
Definition make_heater : Eff SolarHeaterM.ClassState SolarHeater :=
  (panel <- SolarHeaterM.init 1 [] ;;
   ret (SolarHeaterM.setIncidentEnergy panel 1224%Q))%eff.

(** [componentFactory(TANK)] *)
Definition make_tank : Tank := mkTank 500 60 15%Q.

(** [Controller()]: builds the three components, the pump with rate 1,
    and takes the heater's [MAX_HEAT] as target. *)
Definition init : Eff SolarHeaterM.ClassState Sys :=
  (h <- make_heater ;;
   c <- get ;;
   ret (mkSys c h make_tank 1 SolarHeaterM.MAX_HEAT))%eff.

(** The controller built first in a fresh interpreter
    (see [Controller_init_fresh]). *)
Definition default : Sys := mkSys [PanelM.default] (mkSolarHeater 1224%Q)
                                  make_tank 1 SolarHeaterM.MAX_HEAT.

Definition performOneCycle : Eff Sys unit :=
  ((* first draw water from tank -> water in tank decrease *)
   Pumping.drawWaterFromTank ;;
   (* get the temp of water after heater *)
   newWaterTemp <- Pumping.feedWaterToSolarHeater ;;
   (* mix the heated water with water in tank *)
   Pumping.feedWaterToTank newWaterTemp)%eff.

(** [range(time)] *)
Definition range (time : Z) : list Z :=
  map Z.of_nat (seq 0 (Z.to_nat time)).

(** The [for timeTaken in range(time)] loop over the indices still to
    come; [timeTaken] holds the value of the loop variable so far. *)
Fixpoint for_timeTaken (indices : list Z) (timeTaken : Z) : Eff Sys Z :=
  match indices with
  | [] => ret timeTaken
  | i :: rest =>
      (performOneCycle ;;
       s <- get ;;
       if Qle_bool (targetTemp s) (waterTemp (tank s)) then ret i
       else for_timeTaken rest i)%eff
  end.

(** [__simulateSystemForSeconds] *)
Definition simulateSystemForSeconds_ (time : Z) : Eff Sys Z :=
  for_timeTaken (range time) 0.

Definition simulateSystemForSeconds (second : Z) : Eff Sys unit :=
  (timeTaken <- simulateSystemForSeconds_ second ;;
   s <- get ;;
   print [PStr "Temp of water after running the heater for ";
          PInt (timeTaken + 1); PStr "sec ";
          PNum (waterTemp (tank s)); PStr "°C"])%eff.

Definition simulateSystemForHours (hours : Z) : Eff Sys unit :=
  (timeTaken <- simulateSystemForSeconds_ (hours * 3600) ;;
   hoursTaken <- liftR (pydiv (inject_Z timeTaken) 3600%Q) ;;
   s <- get ;;
   print [PStr "Temp of water after running the heater for ";
          PInt hours; PStr "Hours ";
          PNum (waterTemp (tank s)); PStr "°C"])%eff.

End Controller.

(** [main()]: builds a controller and simulates one hour.  The state is
    that of the [SolarHeater] class, which the construction extends. *)
Definition main : Eff SolarHeaterM.ClassState unit :=
  fun c0 =>
    let o := Controller.init c0 in
    match value o with
    | Ok controller =>
        let o' := Controller.simulateSystemForHours 1 controller in
        mkOut (value o') (cls (final o')) (printed o ++ printed o')
    | Raise e => mkOut (Raise e) (final o) (printed o)
    end.

(** ** Notions of the specification *)

Local Open Scope Q_scope.

(** The tank invariant: the stored volume lies between 0 and the capacity. *)
Definition tank_inv (t : Tank) : Prop :=
  (0 <= waterVol t <= capacity t)%Z.

(** The outlet temperature of one panel as the specification writes it:
    absorbed energy [incident * height * width * efficiency], then
    [T2 = Q / (mass * specificHeatCapacity) + T1]. *)
Definition panelOutletTemp (p : Panel) (incident mass inlet : Q) : Q :=
  incident * height p * width p * efficiency p
  / (mass * Fluid.SpecificHeatCapacity) + inlet.

Fixpoint Qsum (l : list Q) : Q :=
  match l with
  | [] => 0
  | x :: l' => x + Qsum l'
  end.


(** The cycle loop as the specification writes it: a state machine that
    leaves [Running] either in [Converged] or in [TimeExhausted], each
    with the number of whole seconds elapsed. *)
Inductive outcome : Type :=
| Converged (elapsed : Z)
| TimeExhausted (elapsed : Z).

Definition elapsed_of (o : outcome) : Z :=
  match o with
  | Converged e => e
  | TimeExhausted e => e
  end.

(** [run_cycles n elapsed]: up to [n] further cycles after [elapsed]
    seconds; after each cycle the tank temperature is compared with the
    target. *)
Fixpoint run_cycles (n : nat) (elapsed : Z) : Eff Sys outcome :=
  match n with
  | O => ret (TimeExhausted elapsed)
  | Datatypes.S n' =>
      (Controller.performOneCycle ;;
       s <- get ;;
       if Qle_bool (targetTemp s) (waterTemp (tank s))
       then ret (Converged (elapsed + 1))
       else run_cycles n' (elapsed + 1))%eff
  end.

(** ** Notions for the further properties *)

(** The energy one panel absorbs, the [Q] of [tempResult]. *)
Definition absorbed (incident : Q) (p : Panel) : Q :=
  incident * height p * width p * efficiency p.

(** The energy all panels of an array absorb together. *)
Definition total_absorbed (incident : Q) (panels : list Panel) : Q :=
  Qsum (map (absorbed incident) panels).

(** The temperature the tank gains in one cycle below the ceiling: the
    energy absorbed by the array over the heat capacity of the whole
    stored volume. *)
Definition cycle_gain (s : Sys) : Q :=
  total_absorbed (incidentEnergy (heater s)) (cls s)
  / (Fluid.SpecificHeatCapacity * inject_Z Fluid.Density
     * inject_Z (waterVol (tank s))).

(** A caller's sequence of [addWater] and [releaseWaterVolume] calls on
    one tank.  Statements run in order and the first exception ends the
    run. *)
Inductive tank_call : Type :=
| AddWater (volume : Z) (temprature : Q)
| ReleaseWater (volume : Z).

Definition call_volume (c : tank_call) : Z :=
  match c with
  | AddWater volume _ => volume
  | ReleaseWater volume => volume
  end.

Definition run_call (c : tank_call) : Eff Tank unit :=
  match c with
  | AddWater volume temprature => TankM.addWater volume temprature
  | ReleaseWater volume => TankM.releaseWaterVolume volume
  end.

Fixpoint run_calls (cs : list tank_call) : Eff Tank unit :=
  match cs with
  | [] => ret tt
  | c :: cs' => (run_call c ;; run_calls cs')%eff
  end.

(** What a simulation leaves alone: the panels, the heater, the pumping
    rate, the target, and the capacity and stored volume of the tank.
    Only the tank temperature moves. *)
Definition same_frame (s s' : Sys) : Prop :=
  cls s' = cls s /\ heater s' = heater s /\
  pumpingRate s' = pumpingRate s /\ targetTemp s' = targetTemp s /\
  capacity (tank s') = capacity (tank s) /\
  waterVol (tank s') = waterVol (tank s).

(** A result with further lines printed before its own. *)
Definition after_printing {S A : Type} (p : list line) (o : Out S A) : Out S A :=
  mkOut (value o) (final o) (p ++ printed o).

(** The later of two optional arguments, if given, else the earlier. *)
Definition later_arg {A : Type} (later earlier : option A) : option A :=
  match later with
  | Some _ => later
  | None => earlier
  end.

(** * Properties *)

(** ** Sequencing *)

Lemma Out_eta {S A : Type} (o : Out S A) :
  mkOut (value o) (final o) (printed o) = o.
Proof. destruct o; reflexivity. Qed.

Lemma bind_ok {S A B : Type} (c : Eff S A) (k : A -> Eff S B)
    (s s' : S) (a : A) (p : list line) :
  c s = mkOut (Ok a) s' p ->
  bind c k s = mkOut (value (k a s')) (final (k a s')) (p ++ printed (k a s')).
Proof. intros H. unfold bind. rewrite H. reflexivity. Qed.

(** A first step that prints nothing hands over to the continuation. *)
Lemma bind_ok_quiet {S A B : Type} (c : Eff S A) (k : A -> Eff S B)
    (s s' : S) (a : A) :
  c s = mkOut (Ok a) s' [] -> bind c k s = k a s'.
Proof. intros H. rewrite (bind_ok _ _ _ _ _ _ H). apply Out_eta. Qed.

Lemma bind_get {S B : Type} (k : S -> Eff S B) (s : S) :
  bind get k s = k s s.
Proof. now apply bind_ok_quiet. Qed.

(** An exception skips the continuation and keeps the state reached. *)
Lemma bind_raise {S A B : Type} (c : Eff S A) (k : A -> Eff S B)
    (s s' : S) (e : exn) (p : list line) :
  c s = mkOut (Raise e) s' p -> bind c k s = mkOut (Raise e) s' p.
Proof. intros H. unfold bind. rewrite H. reflexivity. Qed.

(** ** Division and comparison *)

Lemma Qeq_bool_inject_Z (z : Z) : Qeq_bool (inject_Z z) 0 = (z =? 0)%Z.
Proof.
  unfold Qeq_bool, inject_Z; simpl. now rewrite Z.mul_1_r.
Qed.

Lemma pydiv_ok (a b : Q) : ~ b == 0 -> pydiv a b = Ok (a / b).
Proof.
  intros Hb. unfold pydiv.
  destruct (Qeq_bool b 0) eqn:E; [|reflexivity].
  apply Qeq_bool_iff in E. contradiction.
Qed.

Lemma pydiv_zero (a b : Q) : b == 0 -> pydiv a b = Raise ZeroDivisionError.
Proof.
  intros Hb. unfold pydiv.
  apply Qeq_bool_iff in Hb. now rewrite Hb.
Qed.

Lemma pydiv_inject_Z_ok (a : Q) (z : Z) :
  (z <> 0)%Z -> pydiv a (inject_Z z) = Ok (a / inject_Z z).
Proof.
  intros Hz. unfold pydiv. rewrite Qeq_bool_inject_Z.
  destruct (Z.eqb_spec z 0); [contradiction|reflexivity].
Qed.

Lemma inject_Z_pos (z : Z) : (0 < z)%Z -> 0 < inject_Z z.
Proof.
  intros Hz. change 0 with (inject_Z 0). now rewrite <- Zlt_Qlt.
Qed.


(** ** Tank *)

Section TankFacts.

Variable self : Tank.

(** [__mixWater] returns normally exactly when the divisor
    [volume + waterVol] is not zero. *)
Lemma mixWater_run (volume : Z) (temprature : Q) :
  (volume + waterVol self <> 0)%Z ->
  TankM.mixWater volume temprature self =
  mkOut (Ok tt)
    (mkTank (capacity self) (waterVol self + volume)
       ((inject_Z volume * temprature
         + waterTemp self * inject_Z (waterVol self))
        / inject_Z (volume + waterVol self)))
    [].
Proof.
  intros Hne. unfold TankM.mixWater, bind, get, put, liftR; simpl.
  rewrite (pydiv_inject_Z_ok _ _ Hne); simpl. reflexivity.
Qed.

Lemma mixWater_zero_divisor (volume : Z) (temprature : Q) :
  (volume + waterVol self = 0)%Z ->
  TankM.mixWater volume temprature self = mkOut (Raise ZeroDivisionError) self [].
Proof.
  intros He. unfold TankM.mixWater, bind, get, put, liftR; simpl.
  unfold pydiv. rewrite Qeq_bool_inject_Z, He. reflexivity.
Qed.

(** [addWater] always mixes; the capacity test only decides whether a
    line is printed first. *)
Lemma addWater_run (volume : Z) (temprature : Q) :
  (volume + waterVol self <> 0)%Z ->
  TankM.addWater volume temprature self =
  mkOut (Ok tt)
    (mkTank (capacity self) (waterVol self + volume)
       ((inject_Z volume * temprature
         + waterTemp self * inject_Z (waterVol self))
        / inject_Z (volume + waterVol self)))
    (if (volume >? capacity self - waterVol self)%Z
     then [[PStr "Cannot add more water than the overall tank capacity"]]
     else []).
Proof.
  intros Hne. unfold TankM.addWater, bind, get, print, ret.
  cbn -[TankM.mixWater].
  destruct (volume >? capacity self - waterVol self)%Z;
    cbn -[TankM.mixWater]; rewrite (mixWater_run _ _ Hne); reflexivity.
Qed.

(** Releasing no more than is stored subtracts exactly [volume]. *)
Lemma releaseWaterVolume_run (volume : Z) :
  (volume <= waterVol self)%Z ->
  TankM.releaseWaterVolume volume self =
  mkOut (Ok tt)
    (mkTank (capacity self) (waterVol self - volume) (waterTemp self)) [].
Proof.
  intros Hle. unfold TankM.releaseWaterVolume, bind, get, put; simpl.
  destruct (Z.gtb_spec volume (waterVol self)); [lia|reflexivity].
Qed.

(** Releasing more than is stored stops at [self.waterCap]: nothing is
    printed and the tank is left as it was. *)
Lemma releaseWaterVolume_refused (volume : Z) :
  (waterVol self < volume)%Z ->
  TankM.releaseWaterVolume volume self = mkOut (Raise AttributeError) self [].
Proof.
  intros Hlt. unfold TankM.releaseWaterVolume, bind, get, put; simpl.
  destruct (Z.gtb_spec volume (waterVol self)); [reflexivity|lia].
Qed.

(** Within the remaining capacity, and with a non-negative volume,
    [addWater] keeps the volume between 0 and the capacity. *)
Lemma addWater_within_capacity (volume : Z) (temprature : Q) :
  (0 <= waterVol self <= capacity self)%Z ->
  (0 <= volume <= capacity self - waterVol self)%Z ->
  let o := TankM.addWater volume temprature self in
  (0 <= waterVol (final o) <= capacity (final o))%Z /\
  (value o = Ok tt -> printed o = []).
Proof.
  intros Hinv Hv o. subst o.
  destruct (Z.eq_dec (volume + waterVol self) 0) as [E|E].
  - unfold TankM.addWater, bind, get, print, ret.
    cbn -[TankM.mixWater].
    destruct (Z.gtb_spec volume (capacity self - waterVol self));
      cbn -[TankM.mixWater]; rewrite (mixWater_zero_divisor _ _ E); simpl;
      (split; [lia|discriminate]).
  - rewrite (addWater_run _ _ E); simpl.
    destruct (Z.gtb_spec volume (capacity self - waterVol self)); [lia|].
    split; [lia|reflexivity].
Qed.

End TankFacts.

(** C1.  The claim: after every [addWater] or [releaseWater] call the
    stored volume stays between 0 and the capacity, also when the
    capacity-exceeded line was printed.  On a tank of capacity 500 holding
    60 liters, [addWater(441, 20)] prints the line, mixes all the same and
    leaves 501 liters: the invariant held before the call and is broken
    after it. *)
Theorem addWater_over_capacity_breaks_invariant :
  let self := Controller.make_tank in
  let o := TankM.addWater 441 20 self in
  tank_inv self /\
  value o = Ok tt /\
  printed o = [[PStr "Cannot add more water than the overall tank capacity"]] /\
  waterVol (final o) = 501%Z /\
  capacity (final o) = 500%Z /\
  ~ tank_inv (final o).
Proof.
  cbv zeta. rewrite addWater_run by (simpl; lia). unfold tank_inv; simpl.
  repeat split; try reflexivity; lia.
Qed.



(** C8.  The claim: [releaseWater(volume)] with [volume > storedVolume]
    reports the condition and leaves the tank unchanged.  On a tank
    holding 60 liters, [releaseWaterVolume(61)] raises [AttributeError]
    while the arguments of its [print] call are evaluated: nothing is
    printed and the call does not return normally.  The tank is left
    unchanged. *)
Theorem releaseWaterVolume_over_stored_raises :
  let o := TankM.releaseWaterVolume 61 Controller.make_tank in
  value o = Raise AttributeError /\
  printed o = [] /\
  final o = Controller.make_tank.
Proof.
  cbv zeta. rewrite releaseWaterVolume_refused by (simpl; lia).
  repeat split.
Qed.

(** ** SolarHeater *)

Lemma mapR_ok {A B : Type} (f : A -> result B) (g : A -> B) (l : list A) :
  (forall a, In a l -> f a = Ok (g a)) -> mapR f l = Ok (map g l).
Proof.
  induction l as [|a l IH]; intros Hf; simpl; [reflexivity|].
  rewrite (Hf a (or_introl eq_refl)); simpl.
  rewrite IH by (intros x Hx; apply Hf; now right). reflexivity.
Qed.

Lemma fold_left_Qplus (l : list Q) (a : Q) :
  fold_left Qplus l a == a + Qsum l.
Proof.
  revert a. induction l as [|x l IH]; intros a; simpl.
  - lra.
  - rewrite IH. lra.
Qed.

Lemma pysum_Qsum (l : list Q) : pysum l == Qsum l.
Proof.
  unfold pysum. rewrite fold_left_Qplus. lra.
Qed.

Lemma Qle_bool_false (a b : Q) : b < a -> Qle_bool a b = false.
Proof.
  intros H. destruct (Qle_bool a b) eqn:E; [|reflexivity].
  apply Qle_bool_iff in E. lra.
Qed.

Lemma SpecificHeatCapacity_pos : 0 < Fluid.SpecificHeatCapacity.
Proof. reflexivity. Qed.

Section HeaterFacts.

Variable cls : SolarHeaterM.ClassState.
Variable self : SolarHeater.

(** At or above [MAX_HEAT] the panels are not consulted at all. *)
Lemma heatWater_ceiling (volume : Z) (initialTemp : Q) :
  SolarHeaterM.MAX_HEAT <= initialTemp ->
  SolarHeaterM.heatWater cls self volume initialTemp = Ok SolarHeaterM.MAX_HEAT.
Proof.
  intros H. unfold SolarHeaterM.heatWater.
  apply Qle_bool_iff in H. now rewrite H.
Qed.

(** With a positive mass a panel always produces its outlet
    temperature. *)
Lemma tempResult_ok (p : Panel) (solarEnergy mass temprature : Q) :
  0 < mass ->
  PanelM.tempResult p solarEnergy mass temprature
  = Ok (panelOutletTemp p solarEnergy mass temprature).
Proof.
  intros Hm. unfold PanelM.tempResult, PanelM.heatEnergy, panelOutletTemp.
  rewrite pydiv_ok; [reflexivity|].
  pose proof SpecificHeatCapacity_pos. nra.
Qed.

Lemma tempResult_zero_mass (p : Panel) (solarEnergy mass temprature : Q) :
  mass == 0 ->
  PanelM.tempResult p solarEnergy mass temprature = Raise ZeroDivisionError.
Proof.
  intros Hm. unfold PanelM.tempResult, PanelM.heatEnergy.
  rewrite pydiv_zero; [reflexivity|]. rewrite Hm. lra.
Qed.

(** Below the ceiling, with at least one panel and a positive volume,
    [heatWater] returns the quotient it computes. *)
Lemma heatWater_run (volume : Z) (initialTemp : Q) :
  cls <> [] -> (0 < volume)%Z -> initialTemp < SolarHeaterM.MAX_HEAT ->
  let massPerPanel :=
    inject_Z volume / inject_Z (Z.of_nat (List.length cls))
    * inject_Z Fluid.Density in
  SolarHeaterM.heatWater cls self volume initialTemp
  = Ok (pysum (map (fun p => panelOutletTemp p (incidentEnergy self)
                               massPerPanel initialTemp * massPerPanel) cls)
        / inject_Z (volume * Fluid.Density)).
Proof.
  intros Hne Hv Ht m.
  assert (Hn : (0 < Z.of_nat (List.length cls))%Z)
    by (destruct cls; [contradiction|simpl; lia]).
  assert (Hm : 0 < m).
  { subst m. apply Qmult_lt_0_compat; [|reflexivity].
    apply Qlt_shift_div_l; [now apply inject_Z_pos|].
    rewrite Qmult_0_l. now apply inject_Z_pos. }
  unfold SolarHeaterM.heatWater, SolarHeaterM.panels_of.
  rewrite (Qle_bool_false _ _ Ht).
  rewrite pydiv_inject_Z_ok by lia. cbn [bindR]. fold m.
  rewrite (mapR_ok _ (fun p => panelOutletTemp p (incidentEnergy self) m
                                 initialTemp * m)).
  2:{ intros p _. rewrite (tempResult_ok p _ _ _ Hm). reflexivity. }
  cbn [bindR].
  apply pydiv_inject_Z_ok. unfold Fluid.Density. lia.
Qed.

End HeaterFacts.



(** C9.  The claim: [heatWater] with [volume = 0] fails with an
    invalid-argument error.  The code has no argument check: below the
    ceiling the zero volume reaches a division and [ZeroDivisionError]
    propagates, whatever the panels are. *)
Theorem heatWater_zero_volume_divides_by_zero (cls : SolarHeaterM.ClassState)
    (self : SolarHeater) (inlet : Q) :
  inlet < SolarHeaterM.MAX_HEAT ->
  SolarHeaterM.heatWater cls self 0 inlet = Raise ZeroDivisionError.
Proof.
  intros Hlt. unfold SolarHeaterM.heatWater, SolarHeaterM.panels_of.
  rewrite (Qle_bool_false _ _ Hlt).
  destruct cls as [|p rest].
  - reflexivity.
  - rewrite pydiv_inject_Z_ok by (simpl; lia). cbn [bindR mapR].
    rewrite tempResult_zero_mass; [reflexivity|].
    unfold Qdiv. rewrite !Qmult_0_l. reflexivity.
Qed.

Lemma heatWater_zero_volume_divides_by_zero_witness :
  15 < SolarHeaterM.MAX_HEAT /\
  SolarHeaterM.heatWater [PanelM.default] (mkSolarHeater 1224) 0 15
  = Raise ZeroDivisionError.
Proof.
  split; [reflexivity|].
  apply (heatWater_zero_volume_divides_by_zero
           [PanelM.default] (mkSolarHeater 1224) 15).
  reflexivity.
Defined.

(** C9, the claim refuted at a concrete input: with the default panel and
    a zero volume at 15 degrees the outcome is [ZeroDivisionError], not
    the invalid-argument error [ValueError]. *)
Lemma heatWater_zero_volume_not_ValueError :
  SolarHeaterM.heatWater [PanelM.default] (mkSolarHeater 1224) 0 15
  <> Raise ValueError.
Proof.
  vm_compute. discriminate.
Qed.

(** *** Construction and the shared panel list *)

Lemma repeatE_append_panel (p : Panel) (n : nat) (cls : SolarHeaterM.ClassState) :
  SolarHeaterM.repeatE n (SolarHeaterM.append_panel p) cls
  = mkOut (Ok tt) (cls ++ repeat p n) [].
Proof.
  revert cls. induction n as [|n IH]; intros cls; simpl.
  - unfold ret. now rewrite app_nil_r.
  - unfold bind. simpl. rewrite IH. simpl.
    now rewrite <- app_assoc.
Qed.

(** Building with the default spec appends [number] default panels to the
    list the class already holds. *)
Lemma buildSolarPanels_default (number : Z) (cls : SolarHeaterM.ClassState) :
  SolarHeaterM.buildSolarPanels number [] cls
  = mkOut (Ok tt) (cls ++ repeat PanelM.default (Z.to_nat number)) [].
Proof.
  unfold SolarHeaterM.buildSolarPanels. simpl.
  apply repeatE_append_panel.
Qed.

Lemma buildSolarPanels_custom (number : Z) (h w e : Q)
    (cls : SolarHeaterM.ClassState) :
  SolarHeaterM.buildSolarPanels number [h; w; e] cls
  = mkOut (Ok tt) (cls ++ repeat (mkPanel h w e) (Z.to_nat number)) [].
Proof.
  unfold SolarHeaterM.buildSolarPanels. simpl.
  apply repeatE_append_panel.
Qed.

(** A spec of a length other than 0 or 3 is refused before any panel is
    built. *)
Lemma buildSolarPanels_partial_spec (number : Z) (customSpec : list Q)
    (cls : SolarHeaterM.ClassState) :
  List.length customSpec <> 0%nat -> List.length customSpec <> 3%nat ->
  SolarHeaterM.buildSolarPanels number customSpec cls
  = mkOut (Raise ValueError) cls [].
Proof.
  intros H0 H3. unfold SolarHeaterM.buildSolarPanels.
  destruct (Z.eqb_spec (Z.of_nat (List.length customSpec)) 0); [lia|].
  destruct (Z.eqb_spec (Z.of_nat (List.length customSpec)) 3); [lia|].
  reflexivity.
Qed.

(** The panels an instance sees after a construction are those the class
    held before plus the new ones, whichever instance reads them. *)
Lemma init_default_panels (n : Z) (cls : SolarHeaterM.ClassState)
    (other : SolarHeater) :
  let o := SolarHeaterM.init n [] cls in
  value o = Ok (mkSolarHeater (-1)) /\
  SolarHeaterM.panels_of (final o) other
  = cls ++ repeat PanelM.default (Z.to_nat n).
Proof.
  unfold SolarHeaterM.init, bind. rewrite buildSolarPanels_default.
  simpl. split; reflexivity.
Qed.

(** C5.  The claim: constructing an array with panel count [n] yields
    exactly [n] panels, and constructing one array never changes the
    panels of another.  In a fresh interpreter, [a = SolarHeater(1)]
    sees one panel; after [b = SolarHeater(2)] both [a] and [b] see three
    panels: the list is the class's, and every construction appends to
    it. *)
Theorem panels_shared_between_instances :
  let o1 := SolarHeaterM.init 1 [] SolarHeaterM.fresh_class in
  let o2 := SolarHeaterM.init 2 [] (final o1) in
  exists a b,
    value o1 = Ok a /\ value o2 = Ok b /\
    List.length (SolarHeaterM.panels_of (final o1) a) = 1%nat /\
    List.length (SolarHeaterM.panels_of (final o2) a) = 3%nat /\
    List.length (SolarHeaterM.panels_of (final o2) b) = 3%nat.
Proof.
  cbv zeta.
  exists (mkSolarHeater (-1)), (mkSolarHeater (-1)).
  repeat split.
Qed.

(** *** Incident energy *)

(** [getIncidentEnergy] raises exactly when the stored value equals
    zero. *)
Lemma getIncidentEnergy_raises_iff {S : Type} (self : SolarHeater) (s : S) :
  value (SolarHeaterM.getIncidentEnergy self s) = Raise ValueError
  <-> incidentEnergy self == 0.
Proof.
  unfold SolarHeaterM.getIncidentEnergy.
  destruct (Qeq_bool (incidentEnergy self) 0) eqn:E.
  - apply Qeq_bool_iff in E. simpl. tauto.
  - apply Qeq_bool_neq in E. simpl. split; [discriminate|tauto].
Qed.

(** C6.  The claim: [getIncidentEnergy] fails exactly on the value left
    by construction, and returns a stored zero.  A heater just built
    holds -1 and [getIncidentEnergy] returns that -1 without failing;
    after [setIncidentEnergy(0)] it prints that the energy needs to be
    non-negative and raises [ValueError]. *)
Theorem getIncidentEnergy_accepts_unset_rejects_zero :
  let o := SolarHeaterM.init 1 [] SolarHeaterM.fresh_class in
  exists h,
    value o = Ok h /\
    incidentEnergy h = -1 /\
    SolarHeaterM.getIncidentEnergy h tt = mkOut (Ok (-1)) tt [] /\
    SolarHeaterM.getIncidentEnergy (SolarHeaterM.setIncidentEnergy h 0) tt
    = mkOut (Raise ValueError) tt
        [[PStr "Incident energy on solar panel needs to be non-negative"]].
Proof.
  cbv zeta. exists (mkSolarHeater (-1)). repeat split.
Qed.

(** *** [changePanelAt] *)

(** The lookup of [self] fails before anything else happens. *)
Lemma changePanelAt_run (index : Z) (h w e : option Q)
    (cls : SolarHeaterM.ClassState) :
  SolarHeaterM.changePanelAt index h w e cls = mkOut (Raise NameError) cls [].
Proof. reflexivity. Qed.

(** C7, amended.  For an index at or beyond the number of panels,
    [changePanelAt] does not fail with [IndexError] and changes no
    panel. *)
Theorem changePanelAt_out_of_range (cls : SolarHeaterM.ClassState)
    (index : Z) (h w e : option Q) :
  (Z.of_nat (List.length cls) <= index)%Z ->
  let o := SolarHeaterM.changePanelAt index h w e cls in
  value o <> Raise IndexError /\ final o = cls.
Proof.
  intros _ o. subst o. rewrite changePanelAt_run. simpl.
  split; [discriminate|reflexivity].
Qed.

Lemma changePanelAt_out_of_range_witness :
  let o := SolarHeaterM.changePanelAt 5 (Some 2) None None [PanelM.default] in
  value o <> Raise IndexError /\ final o = [PanelM.default].
Proof.
  apply (changePanelAt_out_of_range [PanelM.default] 5 (Some 2) None None).
  simpl. lia.
Defined.

(** C7, the claim refuted at a concrete input: on an array of one panel,
    index 5 does not produce [IndexError]. *)
Lemma changePanelAt_no_IndexError :
  value (SolarHeaterM.changePanelAt 5 (Some 2) None None [PanelM.default])
  <> Raise IndexError.
Proof.
  rewrite changePanelAt_run. simpl. discriminate.
Qed.

(** ** Pumping and Controller *)

Section CycleFacts.

Variable s : Sys.

Let rate := pumpingRate s.
Let vol := waterVol (tank s).

Lemma drawWaterFromTank_run :
  (rate <= vol)%Z ->
  Pumping.drawWaterFromTank s
  = mkOut (Ok tt)
      (set_tank (mkTank (capacity (tank s)) (vol - rate) (waterTemp (tank s))) s)
      [].
Proof.
  intros Hle. unfold Pumping.drawWaterFromTank, bind, get, zoom.
  cbn -[TankM.releaseWaterVolume].
  rewrite releaseWaterVolume_run by exact Hle. reflexivity.
Qed.

Lemma drawWaterFromTank_refused :
  (vol < rate)%Z ->
  Pumping.drawWaterFromTank s = mkOut (Raise AttributeError) s [].
Proof.
  intros Hlt. unfold Pumping.drawWaterFromTank, bind, get, zoom.
  cbn -[TankM.releaseWaterVolume].
  rewrite releaseWaterVolume_refused by exact Hlt.
  destruct s; reflexivity.
Qed.

(** Heating is a query: the state is returned as it was. *)
Lemma feedWaterToSolarHeater_run :
  Pumping.feedWaterToSolarHeater s
  = mkOut (SolarHeaterM.heatWater (cls s) (heater s) rate (waterTemp (tank s)))
      s [].
Proof.
  unfold Pumping.feedWaterToSolarHeater, bind, get, liftR. simpl.
  destruct (SolarHeaterM.heatWater _ _ _ _); reflexivity.
Qed.

Lemma feedWaterToTank_volume (t : Q) :
  let o := Pumping.feedWaterToTank t s in
  value o = Ok tt -> waterVol (tank (final o)) = (vol + rate)%Z.
Proof.
  unfold Pumping.feedWaterToTank, bind, get, zoom.
  cbn -[TankM.addWater].
  destruct (Z.eq_dec (rate + vol) 0) as [E|E].
  - unfold TankM.addWater, bind, get, print, ret.
    cbn -[TankM.mixWater].
    destruct (pumpingRate s >? capacity (tank s) - waterVol (tank s))%Z;
      cbn -[TankM.mixWater];
      rewrite (mixWater_zero_divisor _ _ _ E); simpl; discriminate.
  - rewrite (addWater_run _ _ _ E). simpl. reflexivity.
Qed.

End CycleFacts.

(** A cycle that draws successfully returns what the return step returns,
    run on the drawn-down tank with the outlet temperature of the
    heater. *)
Lemma performOneCycle_steps (s : Sys) (t : Q) :
  (pumpingRate s <= waterVol (tank s))%Z ->
  let s1 := final (Pumping.drawWaterFromTank s) in
  value (Pumping.feedWaterToSolarHeater s1) = Ok t ->
  Controller.performOneCycle s = Pumping.feedWaterToTank t s1.
Proof.
  intros Hle s1 Ht. subst s1. revert Ht.
  unfold Controller.performOneCycle.
  rewrite (bind_ok_quiet _ _ _ _ _ (drawWaterFromTank_run s Hle)).
  rewrite drawWaterFromTank_run by exact Hle. cbn [final].
  rewrite feedWaterToSolarHeater_run. cbn [value]. intros Ht.
  apply bind_ok_quiet.
  rewrite feedWaterToSolarHeater_run, Ht. reflexivity.
Qed.

(** A cycle whose heating step raises stops there, after the draw. *)
Lemma performOneCycle_heat_raises (s : Sys) (e : exn) :
  (pumpingRate s <= waterVol (tank s))%Z ->
  let s1 := final (Pumping.drawWaterFromTank s) in
  value (Pumping.feedWaterToSolarHeater s1) = Raise e ->
  Controller.performOneCycle s = mkOut (Raise e) s1 [].
Proof.
  intros Hle s1 Ht. subst s1. revert Ht.
  unfold Controller.performOneCycle.
  rewrite (bind_ok_quiet _ _ _ _ _ (drawWaterFromTank_run s Hle)).
  rewrite drawWaterFromTank_run by exact Hle. cbn [final].
  rewrite feedWaterToSolarHeater_run. cbn [value]. intros Ht.
  apply bind_raise.
  rewrite feedWaterToSolarHeater_run, Ht. reflexivity.
Qed.

(** C10.  A pump cycle run on a tank that holds at least the pumping
    rate, and that completes, leaves the stored volume as it was: the
    draw removes exactly [rate] liters and the return adds exactly [rate]
    liters.  With a positive rate and at least one panel such a cycle
    does complete. *)
Theorem performOneCycle_preserves_volume (s : Sys) :
  (pumpingRate s <= waterVol (tank s))%Z ->
  let s1 := final (Pumping.drawWaterFromTank s) in
  let o := Controller.performOneCycle s in
  (value o = Ok tt ->
   waterVol (tank s1) = (waterVol (tank s) - pumpingRate s)%Z /\
   waterVol (tank (final o)) = (waterVol (tank s1) + pumpingRate s)%Z /\
   waterVol (tank (final o)) = waterVol (tank s)) /\
  ((0 < pumpingRate s)%Z -> cls s <> [] -> value o = Ok tt).
Proof.
  intros Hle s1 o.
  assert (Hs1 : s1 = set_tank (mkTank (capacity (tank s))
                                 (waterVol (tank s) - pumpingRate s)
                                 (waterTemp (tank s))) s).
  { subst s1. now rewrite drawWaterFromTank_run. }
  assert (Hheat : Pumping.feedWaterToSolarHeater s1
                  = mkOut (SolarHeaterM.heatWater (cls s) (heater s)
                             (pumpingRate s) (waterTemp (tank s))) s1 []).
  { rewrite feedWaterToSolarHeater_run. rewrite Hs1. reflexivity. }
  split.
  - intros Hok.
    destruct (SolarHeaterM.heatWater (cls s) (heater s) (pumpingRate s)
                (waterTemp (tank s))) as [t|e] eqn:Eh.
    + assert (Ho : o = Pumping.feedWaterToTank t s1).
      { subst o. apply performOneCycle_steps; [exact Hle|].
        fold s1. rewrite Hheat. reflexivity. }
      rewrite Ho in Hok |- *.
      pose proof (feedWaterToTank_volume s1 t Hok) as Hv.
      rewrite Hv. rewrite Hs1. simpl. repeat split; lia.
    + exfalso. subst o. revert Hok.
      rewrite (performOneCycle_heat_raises s e Hle)
        by (fold s1; rewrite Hheat; reflexivity).
      discriminate.
  - intros Hrate Hne.
    destruct (Qlt_le_dec (waterTemp (tank s)) SolarHeaterM.MAX_HEAT) as [Hlt|Hge].
    + pose proof (heatWater_run (cls s) (heater s) (pumpingRate s)
                    (waterTemp (tank s)) Hne Hrate Hlt) as Hrun.
      cbv zeta in Hrun.
      subst o. rewrite (performOneCycle_steps s _ Hle)
        by (fold s1; rewrite Hheat; exact Hrun).
      fold s1. rewrite Hs1.
      unfold Pumping.feedWaterToTank, bind, get, zoom.
      cbn -[TankM.addWater].
      rewrite addWater_run by (simpl; lia). reflexivity.
    + pose proof (heatWater_ceiling (cls s) (heater s) (pumpingRate s)
                    (waterTemp (tank s)) Hge) as Hrun.
      subst o. rewrite (performOneCycle_steps s _ Hle)
        by (fold s1; rewrite Hheat; exact Hrun).
      fold s1. rewrite Hs1.
      unfold Pumping.feedWaterToTank, bind, get, zoom.
      cbn -[TankM.addWater].
      rewrite addWater_run by (simpl; lia). reflexivity.
Qed.

Lemma performOneCycle_preserves_volume_witness :
  let o := Controller.performOneCycle Controller.default in
  value o = Ok tt /\ waterVol (tank (final o)) = 60%Z.
Proof.
  destruct (performOneCycle_preserves_volume Controller.default) as [Hv Hc];
    [simpl; lia|].
  assert (Hok : value (Controller.performOneCycle Controller.default) = Ok tt)
    by (apply Hc; [simpl; lia|discriminate]).
  split; [exact Hok|].
  destruct (Hv Hok) as (_ & _ & H). exact H.
Defined.

(** [Controller()] in a fresh interpreter builds [Controller.default] and
    leaves its one panel in the class's list. *)
Lemma Controller_init_fresh :
  Controller.init SolarHeaterM.fresh_class
  = mkOut (Ok Controller.default) [PanelM.default] [].
Proof. reflexivity. Qed.

(** *** The cycle loop *)

(** The [for] loop of the source and the state machine of the
    specification run the same cycles, print the same lines and fail
    alike.  The loop variable is the elapsed count less one, except that
    a loop over no index at all returns the initial value. *)
Lemma for_timeTaken_run_cycles (k : nat) :
  forall (a : nat) (t0 : Z) (s : Sys),
    let o := Controller.for_timeTaken (map Z.of_nat (seq a k)) t0 s in
    let o' := run_cycles k (Z.of_nat a) s in
    final o = final o' /\ printed o = printed o' /\
    match value o' with
    | Ok (Converged e) => value o = Ok (e - 1)%Z
    | Ok (TimeExhausted e) => value o = Ok (if Nat.eqb k 0 then t0 else (e - 1)%Z)
    | Raise x => value o = Raise x
    end.
Proof.
  induction k as [|k IH]; intros a t0 s; cbn zeta.
  - simpl. repeat split.
  - cbn [seq map Controller.for_timeTaken run_cycles].
    destruct (Controller.performOneCycle s) as [[[]|e] f p] eqn:E.
    + rewrite (bind_ok _ _ _ _ _ _ E), (bind_ok _ _ _ _ _ _ E).
      rewrite !bind_get.
      destruct (Qle_bool (targetTemp f) (waterTemp (tank f))).
      * cbn. repeat split. f_equal. lia.
      * specialize (IH (Datatypes.S a) (Z.of_nat a) f). cbn zeta in IH.
        rewrite Nat2Z.inj_succ in IH. unfold Z.succ in IH.
        destruct IH as (Hf & Hp & Hv).
        cbn [value final printed]. rewrite Hf, Hp.
        split; [reflexivity|]. split; [reflexivity|].
        destruct k as [|k'].
        -- cbn. f_equal. lia.
        -- cbn [Nat.eqb] in Hv |- *. exact Hv.
    + rewrite (bind_raise _ _ _ _ _ _ E), (bind_raise _ _ _ _ _ _ E).
      repeat split.
Qed.

(** For a duration of at least one second the loop returns the elapsed
    count less one, converged or not. *)
Lemma simulateSystemForSeconds_elapsed (time : Z) (s : Sys) :
  (1 <= time)%Z ->
  let o := Controller.simulateSystemForSeconds_ time s in
  let o' := run_cycles (Z.to_nat time) 0 s in
  final o = final o' /\ printed o = printed o' /\
  match value o' with
  | Ok oc => value o = Ok (elapsed_of oc - 1)%Z
  | Raise x => value o = Raise x
  end.
Proof.
  intros Ht o o'. subst o o'.
  unfold Controller.simulateSystemForSeconds_, Controller.range.
  pose proof (for_timeTaken_run_cycles (Z.to_nat time) 0 0%Z s) as H.
  cbn zeta in H. change (Z.of_nat 0) with 0%Z in H.
  destruct H as (Hf & Hp & Hv).
  split; [exact Hf|]. split; [exact Hp|].
  destruct (value (run_cycles (Z.to_nat time) 0 s)) as [[e|e]|x];
    try exact Hv.
  destruct (Z.to_nat time) eqn:En; [lia|]. exact Hv.
Qed.

(** For a duration of zero or less no cycle runs and the loop variable
    keeps its initial value 0. *)
Lemma simulateSystemForSeconds_no_cycle (time : Z) (s : Sys) :
  (time <= 0)%Z ->
  Controller.simulateSystemForSeconds_ time s = mkOut (Ok 0%Z) s [].
Proof.
  intros Ht. unfold Controller.simulateSystemForSeconds_, Controller.range.
  replace (Z.to_nat time) with 0%nat by lia. reflexivity.
Qed.

(** The hourly entry point runs the per-second loop over
    [hours * 3600] indices and changes nothing else. *)
Lemma simulateSystemForHours_loop (hours : Z) (s : Sys) :
  final (Controller.simulateSystemForHours hours s)
  = final (Controller.simulateSystemForSeconds_ (hours * 3600) s).
Proof.
  unfold Controller.simulateSystemForHours.
  destruct (Controller.simulateSystemForSeconds_ (hours * 3600) s)
    as [[t|e] f p] eqn:E.
  - rewrite (bind_ok _ _ _ _ _ _ E). cbn [final].
    unfold bind, liftR, get, print. simpl. reflexivity.
  - rewrite (bind_raise _ _ _ _ _ _ E). reflexivity.
Qed.

(** C4.  The claim: both entry points report the elapsed time.  Two
    runs where the reported time is not the elapsed time.  First, the
    default controller asked for 0 seconds runs no cycle and leaves the
    tank at 15 degrees, yet reports 1 second.  Second, the default
    controller with the target set to 15 degrees asked for 1 hour stops
    after its first cycle, one second, yet reports 1 hour. *)
Theorem simulate_reports_not_elapsed_time :
  let s0 := Controller.default in
  let s1 := mkSys (cls s0) (heater s0) (tank s0) (pumpingRate s0) 15 in
  Controller.simulateSystemForSeconds 0 s0
  = mkOut (Ok tt) s0
      [[PStr "Temp of water after running the heater for "; PInt 1;
        PStr "sec "; PNum 15; PStr "°C"]] /\
  value (Controller.simulateSystemForSeconds_ (1 * 3600) s1) = Ok 0%Z /\
  value (run_cycles (Z.to_nat (1 * 3600)) 0 s1) = Ok (Converged 1) /\
  final (Controller.simulateSystemForHours 1 s1)
  = final (Controller.performOneCycle s1) /\
  printed (Controller.simulateSystemForHours 1 s1)
  = [[PStr "Temp of water after running the heater for "; PInt 1;
      PStr "Hours ";
      PNum (waterTemp (tank (final (Controller.performOneCycle s1))));
      PStr "°C"]].
Proof.
  cbv zeta. repeat split; vm_compute; reflexivity.
Qed.

(** * Further properties *)

(** ** Panel *)

Lemma Qdiv_le_compat_pos (a b c : Q) : 0 < c -> a <= b -> a / c <= b / c.
Proof.
  intros Hc Hab. unfold Qdiv. apply Qmult_le_compat_r; [exact Hab|].
  apply Qinv_le_0_compat. lra.
Qed.

Lemma Qdiv_nonneg (a c : Q) : 0 <= a -> 0 < c -> 0 <= a / c.
Proof.
  intros Ha Hc. apply Qle_shift_div_l; [exact Hc|]. lra.
Qed.

Lemma absorbed_monotone (p : Panel) (e1 e2 : Q) :
  0 <= height p -> 0 <= width p -> 0 <= efficiency p ->
  e1 <= e2 -> absorbed e1 p <= absorbed e2 p.
Proof.
  intros Hh Hw He H12. unfold absorbed.
  repeat (apply Qmult_le_compat_r; [|assumption]). exact H12.
Qed.

Lemma absorbed_nonneg (p : Panel) (e : Q) :
  0 <= height p -> 0 <= width p -> 0 <= efficiency p ->
  0 <= e -> 0 <= absorbed e p.
Proof.
  intros Hh Hw He H0. unfold absorbed.
  repeat apply Qmult_le_0_compat; assumption.
Qed.

(** X1.  For a positive mass and a panel with non-negative dimensions and
    efficiency, [tempResult] returns, never cools the water when the
    solar energy is non-negative, and returns a higher or equal
    temperature for a higher solar energy. *)
Theorem tempResult_monotone_in_energy (p : Panel) (e1 e2 mass T : Q) :
  0 < mass ->
  0 <= height p -> 0 <= width p -> 0 <= efficiency p ->
  0 <= e1 -> e1 <= e2 ->
  exists t1 t2,
    PanelM.tempResult p e1 mass T = Ok t1 /\
    PanelM.tempResult p e2 mass T = Ok t2 /\
    T <= t1 /\ t1 <= t2.
Proof.
  intros Hm Hh Hw He H0 H12.
  pose proof SpecificHeatCapacity_pos as Hc.
  assert (Hmc : 0 < mass * Fluid.SpecificHeatCapacity) by nra.
  exists (panelOutletTemp p e1 mass T), (panelOutletTemp p e2 mass T).
  rewrite !tempResult_ok by exact Hm.
  split; [reflexivity|]. split; [reflexivity|].
  unfold panelOutletTemp. fold (absorbed e1 p) (absorbed e2 p).
  pose proof (absorbed_nonneg p e1 Hh Hw He H0) as Ha.
  pose proof (absorbed_monotone p e1 e2 Hh Hw He H12) as Hmono.
  pose proof (Qdiv_nonneg _ _ Ha Hmc).
  pose proof (Qdiv_le_compat_pos _ _ _ Hmc Hmono).
  split; lra.
Qed.

Lemma tempResult_monotone_in_energy_witness :
  exists t1 t2,
    PanelM.tempResult PanelM.default 0 980 15 = Ok t1 /\
    PanelM.tempResult PanelM.default 1224 980 15 = Ok t2 /\
    15 <= t1 /\ t1 <= t2.
Proof.
  apply (tempResult_monotone_in_energy PanelM.default 0 1224 980 15);
    unfold Qlt, Qle; simpl; lia.
Defined.

(** X2.  With a non-negative absorbed energy, a larger positive mass
    leaves the panel at a lower or equal temperature. *)
Theorem tempResult_antitone_in_mass (p : Panel) (e m1 m2 T : Q) :
  0 <= absorbed e p -> 0 < m1 -> m1 <= m2 ->
  exists t1 t2,
    PanelM.tempResult p e m1 T = Ok t1 /\
    PanelM.tempResult p e m2 T = Ok t2 /\
    t2 <= t1.
Proof.
  intros Ha Hm1 H12.
  pose proof SpecificHeatCapacity_pos as Hc.
  assert (Hm2 : 0 < m2) by lra.
  exists (panelOutletTemp p e m1 T), (panelOutletTemp p e m2 T).
  rewrite !tempResult_ok by assumption.
  split; [reflexivity|]. split; [reflexivity|].
  unfold panelOutletTemp. fold (absorbed e p).
  assert (H1 : 0 < m1 * Fluid.SpecificHeatCapacity) by nra.
  assert (H2 : 0 < m2 * Fluid.SpecificHeatCapacity) by nra.
  assert (Hd : absorbed e p / (m2 * Fluid.SpecificHeatCapacity)
               <= absorbed e p / (m1 * Fluid.SpecificHeatCapacity)).
  { apply Qle_shift_div_l; [exact H1|].
    unfold Qdiv. rewrite <- Qmult_assoc.
    rewrite (Qmult_comm (/ _)). rewrite Qmult_assoc.
    apply Qle_shift_div_r; [exact H2|].
    assert (Hle : m1 * Fluid.SpecificHeatCapacity
                  <= m2 * Fluid.SpecificHeatCapacity)
      by (apply Qmult_le_compat_r; lra).
    rewrite !(Qmult_comm (absorbed e p)).
    apply Qmult_le_compat_r; assumption. }
  lra.
Qed.

Lemma tempResult_antitone_in_mass_witness :
  exists t1 t2,
    PanelM.tempResult PanelM.default 1224 490 15 = Ok t1 /\
    PanelM.tempResult PanelM.default 1224 980 15 = Ok t2 /\
    t2 <= t1.
Proof.
  apply (tempResult_antitone_in_mass PanelM.default 1224 490 980 15);
    unfold Qlt, Qle; simpl; lia.
Defined.

(** X3.  Two partial updates of a panel in a row amount to one update
    in which each field takes the later argument when it is given and the
    earlier one otherwise; an update with no argument changes nothing. *)
Theorem setSpec_compose (p : Panel) (h1 w1 e1 h2 w2 e2 : option Q) :
  PanelM.setSpec (PanelM.setSpec p h1 w1 e1) h2 w2 e2
  = PanelM.setSpec p (later_arg h2 h1) (later_arg w2 w1) (later_arg e2 e1)
  /\ PanelM.setSpec p None None None = p.
Proof.
  split.
  - destruct h1, w1, e1, h2, w2, e2; destruct p; reflexivity.
  - destruct p; reflexivity.
Qed.

(** ** SolarHeater *)

Lemma inject_Z_of_nat_succ (n : nat) :
  inject_Z (Z.of_nat (Datatypes.S n)) == inject_Z (Z.of_nat n) + 1.
Proof.
  rewrite Nat2Z.inj_succ. unfold Z.succ. rewrite inject_Z_plus. reflexivity.
Qed.

(** What the panels contribute to the sum of [heatWater], for any
    positive per-panel mass [m]: the absorbed energy over the specific
    heat, plus the inlet temperature weighted by the masses. *)
Lemma Qsum_panel_terms (l : list Panel) (E m T : Q) :
  0 < m ->
  Qsum (map (fun p => panelOutletTemp p E m T * m) l)
  == total_absorbed E l / Fluid.SpecificHeatCapacity
     + inject_Z (Z.of_nat (List.length l)) * (T * m).
Proof.
  intros Hm. pose proof SpecificHeatCapacity_pos as Hc.
  unfold total_absorbed.
  induction l as [|p l IH].
  - simpl. unfold Qdiv. change (inject_Z (Z.of_nat 0)) with 0. ring.
  - cbn [map Qsum List.length]. rewrite IH, inject_Z_of_nat_succ.
    unfold panelOutletTemp. fold (absorbed E p).
    field. split; lra.
Qed.

Lemma balance_algebra (TA c n T v d : Q) :
  ~ c == 0 -> ~ n == 0 -> ~ v == 0 -> ~ d == 0 ->
  (TA / c + n * (T * (v / n * d))) / (v * d) == T + TA / (c * (v * d)).
Proof.
  intros Hc Hn Hv Hd. field. repeat split; assumption.
Qed.

Lemma total_absorbed_nonneg (E : Q) (l : list Panel) :
  Forall (fun p => 0 <= absorbed E p) l -> 0 <= total_absorbed E l.
Proof.
  unfold total_absorbed. induction 1 as [|p l Hp _ IH]; simpl; lra.
Qed.


(** The closed form of [heatWater] below the ceiling, as a helper. *)
Lemma heatWater_closed_form (cls : SolarHeaterM.ClassState)
    (self : SolarHeater) (volume : Z) (inlet : Q) :
  cls <> [] -> (0 < volume)%Z -> inlet < SolarHeaterM.MAX_HEAT ->
  exists r,
    SolarHeaterM.heatWater cls self volume inlet = Ok r /\
    r == inlet
         + total_absorbed (incidentEnergy self) cls
           / (Fluid.SpecificHeatCapacity
              * (inject_Z volume * inject_Z Fluid.Density)).
Proof.
  intros Hne Hv Hlt.
  rewrite (heatWater_run cls self volume inlet Hne Hv Hlt).
  eexists; split; [reflexivity|].
  assert (Hn : 0 < inject_Z (Z.of_nat (List.length cls))).
  { apply inject_Z_pos. destruct cls; [contradiction|simpl; lia]. }
  assert (Hvq : 0 < inject_Z volume) by now apply inject_Z_pos.
  assert (Hd : 0 < inject_Z Fluid.Density) by reflexivity.
  pose proof SpecificHeatCapacity_pos as Hc.
  assert (Hm : 0 < inject_Z volume / inject_Z (Z.of_nat (List.length cls))
                   * inject_Z Fluid.Density).
  { apply Qmult_lt_0_compat; [|exact Hd].
    apply Qlt_shift_div_l; [exact Hn|]. lra. }
  rewrite pysum_Qsum, (Qsum_panel_terms _ _ _ _ Hm), inject_Z_mult.
  apply balance_algebra; lra.
Qed.





(** X9.  [setIncidentEnergy] followed by [getIncidentEnergy] gives back
    the value set, negative values included, unless that value equals
    zero: then one line is printed and [ValueError] is raised. *)
Theorem setIncidentEnergy_getIncidentEnergy {S : Type} (self : SolarHeater)
    (energy : Q) (s : S) :
  let get := SolarHeaterM.getIncidentEnergy
               (SolarHeaterM.setIncidentEnergy self energy) s in
  (~ energy == 0 -> get = mkOut (Ok energy) s []) /\
  (energy == 0 ->
   get = mkOut (Raise ValueError) s
           [[PStr "Incident energy on solar panel needs to be non-negative"]]).
Proof.
  unfold SolarHeaterM.getIncidentEnergy, SolarHeaterM.setIncidentEnergy.
  cbn [incidentEnergy].
  destruct (Qeq_bool energy 0) eqn:E.
  - apply Qeq_bool_iff in E. split; [contradiction|]. reflexivity.
  - apply Qeq_bool_neq in E. split; [reflexivity|contradiction].
Qed.

Lemma setIncidentEnergy_getIncidentEnergy_witness :
  SolarHeaterM.getIncidentEnergy
    (SolarHeaterM.setIncidentEnergy (mkSolarHeater (-1)) (-5)) tt
  = mkOut (Ok (-5)) tt [] /\
  SolarHeaterM.getIncidentEnergy
    (SolarHeaterM.setIncidentEnergy (mkSolarHeater (-1)) (0 # 7)) tt
  = mkOut (Raise ValueError) tt
      [[PStr "Incident energy on solar panel needs to be non-negative"]].
Proof.
  split.
  - apply (proj1 (setIncidentEnergy_getIncidentEnergy
                    (mkSolarHeater (-1)) (-5) tt)). discriminate.
  - apply (proj2 (setIncidentEnergy_getIncidentEnergy
                    (mkSolarHeater (-1)) (0 # 7) tt)). reflexivity.
Defined.

(** The panel a custom spec describes; the default when none is given. *)
Lemma buildSolarPanels_valid_spec (number : Z) (customSpec : list Q)
    (cls : SolarHeaterM.ClassState) :
  List.length customSpec = 0%nat \/ List.length customSpec = 3%nat ->
  exists p,
    SolarHeaterM.buildSolarPanels number customSpec cls
    = mkOut (Ok tt) (cls ++ repeat p (Z.to_nat number)) [] /\
    (customSpec = [] -> p = PanelM.default) /\
    (forall h w e, customSpec = [h; w; e] -> p = mkPanel h w e).
Proof.
  intros [H|H].
  - destruct customSpec; [|discriminate]. exists PanelM.default.
    split; [apply buildSolarPanels_default|].
    split; [reflexivity|discriminate].
  - destruct customSpec as [|h [|w [|e [|x l]]]]; try discriminate.
    exists (mkPanel h w e).
    split; [apply buildSolarPanels_custom|].
    split; [discriminate|]. intros h' w' e' E. now inversion E.
Qed.

(** X10.  Constructing a heater with a spec of length 0 or 3 appends
    [numberOfPanels] equal panels (none for a negative number) behind the
    panels the class already holds, which keep their places; the new
    panels are the default panel for the empty spec and the given
    (height, width, efficiency) otherwise; the new instance starts with
    incident energy -1.  With a spec of any other length the
    construction raises [ValueError] and the list is as before. *)
Theorem init_appends_panels (numberOfPanels : Z) (customSpec : list Q)
    (cls : SolarHeaterM.ClassState) :
  let o := SolarHeaterM.init numberOfPanels customSpec cls in
  (List.length customSpec = 0%nat \/ List.length customSpec = 3%nat ->
   exists p,
     value o = Ok (mkSolarHeater (-1)) /\
     final o = cls ++ repeat p (Z.to_nat numberOfPanels) /\
     List.length (final o)
     = (List.length cls + Z.to_nat numberOfPanels)%nat /\
     (customSpec = [] -> p = PanelM.default) /\
     (forall h w e, customSpec = [h; w; e] -> p = mkPanel h w e)) /\
  (List.length customSpec <> 0%nat -> List.length customSpec <> 3%nat ->
   o = mkOut (Raise ValueError) cls []).
Proof.
  cbv zeta. unfold SolarHeaterM.init. split.
  - intros Hlen.
    destruct (buildSolarPanels_valid_spec numberOfPanels customSpec cls Hlen)
      as (p & Hb & Hd & Hc).
    exists p. rewrite (bind_ok_quiet _ _ _ _ _ Hb). cbn.
    split; [reflexivity|]. split; [reflexivity|].
    split; [|split; assumption].
    now rewrite length_app, repeat_length.
  - intros H0 H3.
    apply bind_raise. now apply buildSolarPanels_partial_spec.
Qed.

Lemma init_appends_panels_witness :
  (exists p,
     value (SolarHeaterM.init 2 [2; 1; 0.2] [PanelM.default])
     = Ok (mkSolarHeater (-1)) /\
     final (SolarHeaterM.init 2 [2; 1; 0.2] [PanelM.default])
     = [PanelM.default] ++ repeat p 2 /\
     p = mkPanel 2 1 0.2) /\
  SolarHeaterM.init 2 [2; 1] [PanelM.default]
  = mkOut (Raise ValueError) [PanelM.default] [].
Proof.
  split.
  - destruct (proj1 (init_appends_panels 2 [2; 1; 0.2] [PanelM.default]))
      as (p & Hv & Hf & _ & _ & Hc); [right; reflexivity|].
    exists p. split; [exact Hv|]. split; [exact Hf|].
    apply Hc. reflexivity.
  - apply (proj2 (init_appends_panels 2 [2; 1] [PanelM.default]));
      discriminate.
Defined.

(** ** Tank *)



(** X7.  When the incoming volume cancels the stored volume, as when
    nothing is added to an empty tank, [addWater] raises
    [ZeroDivisionError] and leaves the tank as it was. *)
Theorem addWater_zero_total_raises (self : Tank) (volume : Z) (temprature : Q) :
  (volume + waterVol self = 0)%Z ->
  let o := TankM.addWater volume temprature self in
  value o = Raise ZeroDivisionError /\ final o = self.
Proof.
  intros E o. subst o.
  unfold TankM.addWater, bind, get, print, ret.
  cbn -[TankM.mixWater].
  destruct (volume >? capacity self - waterVol self)%Z;
    cbn -[TankM.mixWater]; rewrite (mixWater_zero_divisor _ _ _ E);
    split; reflexivity.
Qed.

Lemma addWater_zero_total_raises_witness :
  let o := TankM.addWater 0 20 (mkTank 500 0 15) in
  value o = Raise ZeroDivisionError /\ final o = mkTank 500 0 15.
Proof.
  apply (addWater_zero_total_raises (mkTank 500 0 15) 0 20). reflexivity.
Defined.

(** One call with a non-negative volume, on a tank whose volume is not
    negative. *)
Lemma run_call_step (c : tank_call) (self : Tank) :
  (0 <= waterVol self)%Z -> (0 <= call_volume c)%Z ->
  let o := run_call c self in
  (0 <= waterVol (final o))%Z /\
  capacity (final o) = capacity self /\
  ((waterVol self <= capacity self)%Z -> printed o = [] ->
   (waterVol (final o) <= capacity self)%Z).
Proof.
  intros Hv Hc o. subst o.
  destruct c as [volume t|volume]; cbn [run_call call_volume] in Hc |- *.
  - destruct (Z.eq_dec (volume + waterVol self) 0) as [E|E].
    + destruct (addWater_zero_total_raises self volume t E) as [_ Hf].
      rewrite Hf. repeat split; auto.
    + rewrite addWater_run by exact E. simpl.
      split; [lia|]. split; [reflexivity|].
      intros Hinv.
      destruct (Z.gtb_spec volume (capacity self - waterVol self));
        [discriminate|]. intros _. lia.
  - destruct (Z_le_gt_dec volume (waterVol self)) as [Hle|Hgt].
    + rewrite releaseWaterVolume_run by exact Hle. simpl.
      repeat split; try lia.
    + rewrite releaseWaterVolume_refused by lia. simpl.
      repeat split; auto.
Qed.

(** X8.  Over any sequence of [addWater] and [releaseWaterVolume] calls
    with non-negative volumes, on a tank whose volume is not negative:
    the stored volume never becomes negative, the capacity is never
    changed, and if the volume started within the capacity and no line
    was printed, it is within the capacity at the end.  This holds for
    the state left behind also when a call raised and ended the run. *)
Theorem run_calls_keeps_volume_bounds (cs : list tank_call) :
  forall self : Tank,
    (0 <= waterVol self)%Z ->
    Forall (fun c => (0 <= call_volume c)%Z) cs ->
    let o := run_calls cs self in
    (0 <= waterVol (final o))%Z /\
    capacity (final o) = capacity self /\
    ((waterVol self <= capacity self)%Z -> printed o = [] ->
     (waterVol (final o) <= capacity (final o))%Z).
Proof.
  induction cs as [|c cs IH]; intros self Hv Hall; cbn zeta.
  - simpl. repeat split; auto.
  - inversion Hall as [|c' cs' Hc Hcs]; subst.
    cbn [run_calls].
    pose proof (run_call_step c self Hv Hc) as Hstep. cbn zeta in Hstep.
    destruct (run_call c self) as [[[]|e] f p] eqn:E;
      cbn [value final printed] in Hstep;
      destruct Hstep as (Hf0 & Hfc & Hfp).
    + rewrite (bind_ok _ _ _ _ _ _ E). cbn [value final printed].
      specialize (IH f Hf0 Hcs). cbn zeta in IH.
      destruct IH as (I0 & Ic & Ip).
      split; [exact I0|]. split; [congruence|].
      intros Hinv Hpr. apply app_eq_nil in Hpr. destruct Hpr as [Hp1 Hp2].
      apply Ip; [|exact Hp2]. rewrite Hfc. now apply Hfp.
    + rewrite (bind_raise _ _ _ _ _ _ E). cbn [value final printed].
      split; [exact Hf0|]. split; [exact Hfc|].
      intros Hinv Hpr. rewrite Hfc. now apply Hfp.
Qed.

Lemma run_calls_keeps_volume_bounds_witness :
  let o := run_calls [AddWater 100 20; ReleaseWater 30; ReleaseWater 500;
                      AddWater 5 10] Controller.make_tank in
  (0 <= waterVol (final o))%Z /\
  capacity (final o) = 500%Z /\
  (printed o = [] -> (waterVol (final o) <= capacity (final o))%Z).
Proof.
  destruct (run_calls_keeps_volume_bounds
              [AddWater 100 20; ReleaseWater 30; ReleaseWater 500;
               AddWater 5 10] Controller.make_tank) as (H0 & Hc & Hp).
  - simpl. lia.
  - repeat constructor; simpl; lia.
  - split; [exact H0|]. split; [exact Hc|].
    apply Hp. simpl. lia.
Defined.

(** ** Pumping and Controller *)

Lemma same_frame_refl (s : Sys) : same_frame s s.
Proof. repeat split. Qed.

Lemma same_frame_trans (s1 s2 s3 : Sys) :
  same_frame s1 s2 -> same_frame s2 s3 -> same_frame s1 s3.
Proof.
  unfold same_frame. intros (A1 & A2 & A3 & A4 & A5 & A6)
                            (B1 & B2 & B3 & B4 & B5 & B6).
  repeat split; congruence.
Qed.

Lemma cycle_gain_same_frame (s s' : Sys) :
  same_frame s s' -> cycle_gain s' = cycle_gain s.
Proof.
  intros (A1 & A2 & A3 & A4 & A5 & A6). unfold cycle_gain.
  now rewrite A1, A2, A6.
Qed.

Lemma inject_Z_minus (x y : Z) : inject_Z (x - y) == inject_Z x - inject_Z y.
Proof.
  unfold Z.sub. rewrite inject_Z_plus, inject_Z_opp. reflexivity.
Qed.

(** A cycle on a system with at least one panel and a positive rate that
    the tank can supply: it returns, and the state it leaves is the one
    written here, with [T'] the outlet temperature of the heater. *)
Lemma performOneCycle_run (s : Sys) :
  (0 < pumpingRate s <= waterVol (tank s))%Z -> cls s <> [] ->
  let r := pumpingRate s in
  let V := waterVol (tank s) in
  let T := waterTemp (tank s) in
  exists T' p,
    SolarHeaterM.heatWater (cls s) (heater s) r T = Ok T' /\
    Controller.performOneCycle s
    = mkOut (Ok tt)
        (mkSys (cls s) (heater s)
           (mkTank (capacity (tank s)) (V - r + r)
              ((inject_Z r * T' + T * inject_Z (V - r))
               / inject_Z (r + (V - r))))
           r (targetTemp s))
        p /\
    ((V <= capacity (tank s))%Z -> p = []).
Proof.
  intros [Hr Hle] Hne r V T.
  assert (Hheat : exists T',
             SolarHeaterM.heatWater (cls s) (heater s) r T = Ok T').
  { destruct (Qlt_le_dec T SolarHeaterM.MAX_HEAT) as [Hlt|Hge].
    - eexists. apply (heatWater_run (cls s) (heater s) r T Hne Hr Hlt).
    - eexists. apply (heatWater_ceiling (cls s) (heater s) r T Hge). }
  destruct Hheat as [T' HT'].
  exists T'.
  exists (if (r >? capacity (tank s) - (V - r))%Z
          then [[PStr "Cannot add more water than the overall tank capacity"]]
          else []).
  split; [exact HT'|]. split.
  - rewrite (performOneCycle_steps s T' Hle).
    + rewrite drawWaterFromTank_run by exact Hle. cbn [final].
      unfold Pumping.feedWaterToTank, bind, get, zoom.
      cbn -[TankM.addWater].
      rewrite addWater_run by (simpl; lia). reflexivity.
    + rewrite drawWaterFromTank_run by exact Hle. cbn [final].
      rewrite feedWaterToSolarHeater_run. exact HT'.
  - intros Hcap.
    destruct (Z.gtb_spec r (capacity (tank s) - (V - r))); [lia|reflexivity].
Qed.

Lemma gain_algebra (r V T TA c d : Q) :
  ~ r == 0 -> ~ V == 0 -> ~ c == 0 -> ~ d == 0 ->
  (r * (T + TA / (c * (r * d))) + T * (V - r)) / V == T + TA / (c * d * V).
Proof.
  intros Hr HV Hc Hd. field. repeat split; assumption.
Qed.

(** Below the ceiling a cycle adds [cycle_gain] to the tank temperature
    and leaves everything else alone. *)
Lemma performOneCycle_below_ceiling (s : Sys) :
  (0 < pumpingRate s <= waterVol (tank s))%Z -> cls s <> [] ->
  waterTemp (tank s) < SolarHeaterM.MAX_HEAT ->
  exists s' p,
    Controller.performOneCycle s = mkOut (Ok tt) s' p /\
    waterTemp (tank s') == waterTemp (tank s) + cycle_gain s /\
    same_frame s s' /\
    ((waterVol (tank s) <= capacity (tank s))%Z -> p = []).
Proof.
  intros Hrate Hne Hlt.
  destruct (performOneCycle_run s Hrate Hne) as (T' & p & HT' & Hrun & Hquiet).
  cbv zeta in HT', Hrun, Hquiet.
  destruct (heatWater_closed_form (cls s) (heater s) (pumpingRate s)
              (waterTemp (tank s)) Hne (proj1 Hrate) Hlt) as (r' & Hr' & Hq).
  rewrite HT' in Hr'. injection Hr' as <-.
  eexists. exists p. split; [exact Hrun|].
  cbn [tank waterTemp cls heater pumpingRate targetTemp capacity waterVol].
  split.
  - replace (pumpingRate s + (waterVol (tank s) - pumpingRate s))%Z
      with (waterVol (tank s)) by lia.
    rewrite inject_Z_minus, Hq. unfold cycle_gain.
    apply gain_algebra.
    + pose proof (inject_Z_pos _ (proj1 Hrate)). lra.
    + assert (0 < inject_Z (waterVol (tank s))) by (apply inject_Z_pos; lia).
      lra.
    + pose proof SpecificHeatCapacity_pos. lra.
    + discriminate.
  - split; [|exact Hquiet]. unfold same_frame. cbn. repeat split. lia.
Qed.





(** *** The simulation loop *)

Lemma after_printing_nil {S A : Type} (o : Out S A) : after_printing [] o = o.
Proof. destruct o; reflexivity. Qed.

Lemma inject_Z_of_nat_nonneg (k : nat) : 0 <= inject_Z (Z.of_nat k).
Proof.
  change 0 with (inject_Z 0). rewrite <- Zle_Qle. lia.
Qed.

(** The first [k] cycles of the loop, when the tank stays below the
    target and the ceiling throughout: each adds [cycle_gain], and the
    loop goes on with the indices that remain. *)
Lemma for_timeTaken_prefix (k : nat) :
  forall (a : nat) (t0 : Z) (s : Sys),
    (0 < pumpingRate s <= waterVol (tank s))%Z -> cls s <> [] ->
    0 <= cycle_gain s ->
    waterTemp (tank s) + inject_Z (Z.of_nat k) * cycle_gain s < targetTemp s ->
    waterTemp (tank s) + inject_Z (Z.of_nat k) * cycle_gain s
    < SolarHeaterM.MAX_HEAT ->
    exists s_k p,
      same_frame s s_k /\
      waterTemp (tank s_k)
      == waterTemp (tank s) + inject_Z (Z.of_nat k) * cycle_gain s /\
      ((waterVol (tank s) <= capacity (tank s))%Z -> p = []) /\
      forall more,
        Controller.for_timeTaken (map Z.of_nat (seq a k) ++ more) t0 s
        = after_printing p
            (Controller.for_timeTaken more
               (if Nat.eqb k 0 then t0 else (Z.of_nat a + Z.of_nat k - 1)%Z)
               s_k).
Proof.
  induction k as [|k IH]; intros a t0 s Hrate Hne Hg Htarget Hmax.
  - exists s, []. split; [apply same_frame_refl|].
    split; [change (inject_Z (Z.of_nat 0)) with 0; ring|].
    split; [reflexivity|].
    intros more. cbn. now rewrite after_printing_nil.
  - pose proof (inject_Z_of_nat_nonneg k) as Hk.
    rewrite inject_Z_of_nat_succ in Htarget, Hmax.
    assert (Hlt : waterTemp (tank s) < SolarHeaterM.MAX_HEAT) by nra.
    destruct (performOneCycle_below_ceiling s Hrate Hne Hlt)
      as (s1 & p1 & Hrun & Ht1 & Hfr & Hq1).
    pose proof (cycle_gain_same_frame _ _ Hfr) as Hg1.
    pose proof Hfr as (F1 & F2 & F3 & F4 & F5 & F6).
    destruct (IH (Datatypes.S a) (Z.of_nat a) s1)
      as (s_k & p2 & Hfr2 & Htk & Hq2 & Hloop).
    + rewrite F3, F6. exact Hrate.
    + now rewrite F1.
    + now rewrite Hg1.
    + rewrite Hg1, F4, Ht1. lra.
    + rewrite Hg1, Ht1. lra.
    + exists s_k, (p1 ++ p2).
      split; [exact (same_frame_trans _ _ _ Hfr Hfr2)|].
      split; [|split].
      * rewrite Htk, Hg1, Ht1, inject_Z_of_nat_succ. ring.
      * intros Hcap. rewrite (Hq1 Hcap), Hq2; [reflexivity|].
        rewrite F5, F6. exact Hcap.
      * intros more. cbn [seq map app Controller.for_timeTaken].
        rewrite (bind_ok _ _ _ _ _ _ Hrun), bind_get.
        assert (Hno : Qle_bool (targetTemp s1) (waterTemp (tank s1)) = false).
        { apply Qle_bool_false. rewrite F4, Ht1. nra. }
        rewrite Hno, Hloop. unfold after_printing. cbn [value final printed].
        replace (if Nat.eqb k 0 then Z.of_nat a
                 else (Z.of_nat (Datatypes.S a) + Z.of_nat k - 1)%Z)
          with (Z.of_nat a + Z.of_nat (Datatypes.S k) - 1)%Z
          by (destruct k; cbn [Nat.eqb]; lia).
        cbn [Nat.eqb]. now rewrite app_assoc.
Qed.

(** The loop when the time runs out before the target is reached. *)
Lemma simulateSystemForSeconds_linear (s : Sys) (time : Z) :
  (1 <= time)%Z ->
  (0 < pumpingRate s <= waterVol (tank s))%Z -> cls s <> [] ->
  0 <= cycle_gain s ->
  waterTemp (tank s) + inject_Z time * cycle_gain s < targetTemp s ->
  waterTemp (tank s) + inject_Z time * cycle_gain s < SolarHeaterM.MAX_HEAT ->
  let o := Controller.simulateSystemForSeconds_ time s in
  value o = Ok (time - 1)%Z /\
  waterTemp (tank (final o))
  == waterTemp (tank s) + inject_Z time * cycle_gain s /\
  same_frame s (final o) /\
  ((waterVol (tank s) <= capacity (tank s))%Z -> printed o = []).
Proof.
  intros Ht Hrate Hne Hg Htarget Hmax o. subst o.
  unfold Controller.simulateSystemForSeconds_, Controller.range.
  assert (Hk : Z.of_nat (Z.to_nat time) = time) by lia.
  rewrite <- Hk in Htarget, Hmax.
  destruct (for_timeTaken_prefix (Z.to_nat time) 0 0%Z s
              Hrate Hne Hg Htarget Hmax)
    as (s_k & p & Hfr & Htk & Hq & Hloop).
  specialize (Hloop []). rewrite app_nil_r in Hloop. rewrite Hloop.
  cbn [Controller.for_timeTaken after_printing ret value final printed].
  destruct (Z.to_nat time) eqn:En; [lia|]. cbn [Nat.eqb].
  split; [f_equal; lia|].
  split; [rewrite Htk, Hk; reflexivity|].
  split; [exact Hfr|].
  intros Hcap. rewrite (Hq Hcap). reflexivity.
Qed.







(** The loop over [k] indices from [a] on a system with at least one panel
    and a positive rate the tank can supply: it returns, keeps the frame,
    and stops before the last index only with the target reached. *)
Lemma for_timeTaken_total (k : nat) :
  forall (a : nat) (t0 : Z) (s : Sys),
    (0 < pumpingRate s <= waterVol (tank s))%Z -> cls s <> [] ->
    let o := Controller.for_timeTaken (map Z.of_nat (seq a k)) t0 s in
    exists t,
      value o = Ok t /\ same_frame s (final o) /\
      (k = 0%nat -> t = t0) /\
      (k <> 0%nat ->
       (Z.of_nat a <= t <= Z.of_nat a + Z.of_nat k - 1)%Z /\
       ((t < Z.of_nat a + Z.of_nat k - 1)%Z ->
        targetTemp s <= waterTemp (tank (final o)))).
Proof.
  induction k as [|k IH]; intros a t0 s Hrate Hne; cbn zeta.
  - exists t0. cbn. split; [reflexivity|]. split; [apply same_frame_refl|].
    split; [reflexivity|]. intros H; contradiction.
  - cbn [seq map Controller.for_timeTaken].
    destruct (performOneCycle_run s Hrate Hne) as (T' & p & _ & Hrun & _).
    cbv zeta in Hrun.
    set (s1 := mkSys _ _ _ _ _) in Hrun.
    assert (Hfr : same_frame s s1).
    { subst s1. unfold same_frame. cbn. repeat split. lia. }
    pose proof Hfr as (F1 & F2 & F3 & F4 & F5 & F6).
    rewrite (bind_ok _ _ _ _ _ _ Hrun), bind_get.
    destruct (Qle_bool (targetTemp s1) (waterTemp (tank s1))) eqn:Etest.
    + exists (Z.of_nat a). cbn [ret value final].
      split; [reflexivity|]. split; [exact Hfr|].
      split; [discriminate|]. intros _. split; [lia|].
      intros _. apply Qle_bool_iff in Etest. now rewrite <- F4.
    + destruct (IH (Datatypes.S a) (Z.of_nat a) s1) as (t & Hv & Hfr2 & H0 & Hpos).
      * rewrite F3, F6. exact Hrate.
      * now rewrite F1.
      * exists t. cbn [value final]. split; [exact Hv|].
        split; [exact (same_frame_trans _ _ _ Hfr Hfr2)|].
        split; [discriminate|]. intros _.
        destruct k as [|k'].
        -- rewrite (H0 eq_refl). split; lia.
        -- destruct (Hpos ltac:(discriminate)) as [Hb Hc].
           split; [lia|]. intros Hlt. rewrite <- F4. apply Hc. lia.
Qed.

(** X13.  On a system with at least one panel and a positive pumping
    rate that the tank can supply, [__simulateSystemForSeconds] returns
    for every duration.  The value is between 0 and [time - 1] (0 for a
    duration below 1); the panels, the heater, the rate, the target and
    the tank's capacity and volume are as before; and when the loop
    stopped before its last index the tank has reached the target. *)
Theorem simulate_returns_and_keeps_frame (s : Sys) (time : Z) :
  (0 < pumpingRate s <= waterVol (tank s))%Z -> cls s <> [] ->
  let o := Controller.simulateSystemForSeconds_ time s in
  exists t,
    value o = Ok t /\ same_frame s (final o) /\
    (0 <= t <= Z.max time 1 - 1)%Z /\
    ((t < time - 1)%Z -> targetTemp s <= waterTemp (tank (final o))).
Proof.
  intros Hrate Hne o. subst o.
  unfold Controller.simulateSystemForSeconds_, Controller.range.
  destruct (for_timeTaken_total (Z.to_nat time) 0 0%Z s Hrate Hne)
    as (t & Hv & Hfr & H0 & Hpos).
  exists t. split; [exact Hv|]. split; [exact Hfr|].
  destruct (Z.to_nat time) eqn:En.
  - rewrite (H0 eq_refl). split; lia.
  - destruct (Hpos ltac:(discriminate)) as [Hb Hc].
    split; [lia|]. intros Hlt. apply Hc. lia.
Qed.

Lemma simulate_returns_and_keeps_frame_witness :
  let o := Controller.simulateSystemForSeconds_ 3600 Controller.default in
  exists t,
    value o = Ok t /\ same_frame Controller.default (final o) /\
    (0 <= t <= 3599)%Z /\
    ((t < 3599)%Z -> 95 <= waterTemp (tank (final o))).
Proof.
  apply (simulate_returns_and_keeps_frame Controller.default 3600);
    [simpl; lia|discriminate].
Defined.

(** A cycle on a tank that holds less than the pumping rate stops at the
    draw. *)
Lemma performOneCycle_draw_refused (s : Sys) :
  (waterVol (tank s) < pumpingRate s)%Z ->
  Controller.performOneCycle s = mkOut (Raise AttributeError) s [].
Proof.
  intros Hlt. unfold Controller.performOneCycle.
  apply bind_raise. now apply drawWaterFromTank_refused.
Qed.

(** X11.  When the tank holds less than the pumping rate, both entry
    points, asked for at least one second or hour, raise
    [AttributeError] in their first cycle: nothing is printed, no result
    is reported and the system is left as it was. *)
Theorem simulate_aborts_on_low_tank (s : Sys) (n : Z) :
  (waterVol (tank s) < pumpingRate s)%Z -> (1 <= n)%Z ->
  Controller.simulateSystemForSeconds n s = mkOut (Raise AttributeError) s [] /\
  Controller.simulateSystemForHours n s = mkOut (Raise AttributeError) s [].
Proof.
  intros Hlt Hn.
  assert (Hloop : forall time, (1 <= time)%Z ->
            Controller.simulateSystemForSeconds_ time s
            = mkOut (Raise AttributeError) s []).
  { intros time Ht.
    unfold Controller.simulateSystemForSeconds_, Controller.range.
    destruct (Z.to_nat time) eqn:En; [lia|].
    cbn [seq map Controller.for_timeTaken].
    apply bind_raise. now apply performOneCycle_draw_refused. }
  split.
  - unfold Controller.simulateSystemForSeconds.
    apply bind_raise. now apply Hloop.
  - unfold Controller.simulateSystemForHours.
    apply bind_raise. apply Hloop. lia.
Qed.

Lemma simulate_aborts_on_low_tank_witness :
  let s := mkSys [PanelM.default] (mkSolarHeater 1224) (mkTank 500 0 15) 1
             SolarHeaterM.MAX_HEAT in
  Controller.simulateSystemForSeconds 10 s = mkOut (Raise AttributeError) s [] /\
  Controller.simulateSystemForHours 10 s = mkOut (Raise AttributeError) s [].
Proof.
  apply (simulate_aborts_on_low_tank
           (mkSys [PanelM.default] (mkSolarHeater 1224) (mkTank 500 0 15) 1
              SolarHeaterM.MAX_HEAT) 10); simpl; lia.
Defined.

(** What the hourly entry point prints once its loop has returned: the
    hours asked for and the tank temperature reached. *)
Lemma simulateSystemForHours_report (hours time timeTaken : Z)
    (s f : Sys) (p : list line) :
  time = (hours * 3600)%Z ->
  Controller.simulateSystemForSeconds_ time s = mkOut (Ok timeTaken) f p ->
  Controller.simulateSystemForHours hours s
  = mkOut (Ok tt) f
      (p ++ [[PStr "Temp of water after running the heater for "; PInt hours;
              PStr "Hours "; PNum (waterTemp (tank f)); PStr "°C"]]).
Proof.
  intros -> E. unfold Controller.simulateSystemForHours.
  rewrite (bind_ok _ _ _ _ _ _ E).
  unfold bind, liftR, get, print, pydiv. cbn. reflexivity.
Qed.

(** X18.  [main()] in a fresh interpreter returns normally, leaves one
    default panel in the class's list and prints a single line: one hour,
    and a tank temperature between 18.21 and 18.22 degrees, the result
    the module's docstring announces. *)
Theorem main_heats_to_18_21 :
  exists t,
    main SolarHeaterM.fresh_class
    = mkOut (Ok tt) [PanelM.default]
        [[PStr "Temp of water after running the heater for "; PInt 1;
          PStr "Hours "; PNum t; PStr "°C"]] /\
    18.21 <= t <= 18.22.
Proof.
  assert (H1 : (1 <= 3600)%Z) by lia.
  assert (H2 : (0 < pumpingRate Controller.default
                <= waterVol (tank Controller.default))%Z) by (simpl; lia).
  assert (H3 : cls Controller.default <> []) by discriminate.
  assert (H4 : 0 <= cycle_gain Controller.default)
    by (unfold Qle; vm_compute; discriminate).
  assert (H5 : waterTemp (tank Controller.default)
               + inject_Z 3600 * cycle_gain Controller.default
               < targetTemp Controller.default)
    by (unfold Qlt; vm_compute; reflexivity).
  assert (H6 : waterTemp (tank Controller.default)
               + inject_Z 3600 * cycle_gain Controller.default
               < SolarHeaterM.MAX_HEAT)
    by (unfold Qlt; vm_compute; reflexivity).
  assert (H7 : (waterVol (tank Controller.default)
                <= capacity (tank Controller.default))%Z) by (simpl; lia).
  destruct (simulateSystemForSeconds_linear Controller.default 3600
              H1 H2 H3 H4 H5 H6) as (Hv & Htemp & Hfr & Hquiet).
  specialize (Hquiet H7).
  destruct (Controller.simulateSystemForSeconds_ 3600 Controller.default)
    as [v f p] eqn:E.
  cbn [value final printed] in Hv, Htemp, Hfr, Hquiet. subst v p.
  pose proof (simulateSystemForHours_report 1 3600 _ _ _ _ eq_refl E) as Hrep.
  destruct Hfr as (F1 & _).
  exists (waterTemp (tank f)). split.
  - unfold main. rewrite Controller_init_fresh.
    cbn [value final printed app]. rewrite Hrep.
    cbn [value final printed app]. rewrite F1. reflexivity.
  - rewrite Htemp.
    assert (Hb : 18.21 <= 15 + inject_Z 3600 * cycle_gain Controller.default
                 /\ 15 + inject_Z 3600 * cycle_gain Controller.default <= 18.22)
      by (unfold Qle; vm_compute; split; discriminate).
    exact Hb.
Qed.
